(** * lc_regression.utils: time normalisation and domain-restricted chi-squared

    A shallow embedding of [src/lc_regression/utils.py].

    Numbers.  The Python code computes on binary64 floats (numpy scalars and
    arrays).  The general statements are made over exact rationals ([Q]),
    with [==] ([Qeq]) for equality of results; the two constants of the time
    normaliser, 53000 and 2400000.5, are exactly representable both as
    floats and as rationals.  Only statements that remain true of the code
    when its sums are rounded to binary64 are kept in that form: their
    hypotheses keep the inputs away from the places where rounding decides
    ([Binary64] below evaluates the time normaliser on floats and shows
    where those places are).  Infinities and NaN are outside the model.

    Effects.  [calc_model_chisq] receives a reference to an astropy table.
    Tables live in a store ([gmap loc Table]); the function is written in a
    small state-and-exception monad so that the claim about the caller's
    table being left alone is a statement about the final store. *)

From Stdlib Require Import PrimFloat.
From Stdlib Require Import QArith Qfield Lqa ZArith List.
From stdpp Require Import gmap strings list fin_maps.

Local Open Scope Q_scope.

(** ** Rational comparisons as the code writes them *)

Definition Qltb (x y : Q) : bool := negb (Qle_bool y x).
Definition Qgtb (x y : Q) : bool := Qltb y x.
Definition Qgeb (x y : Q) : bool := Qle_bool y x.

(** ** Time normaliser *)

Module TimeNormalizer.

(** The two date formats of [astropy.time.Time] that the code names. *)
Inductive date_format := mjd | jd.

(** Modelled from the spec: [astropy.time.Time] is an external library.  Per
    the glossary, MJD = JD - 2400000.5; an instant is stored as its Julian
    date together with the format in which [value] reports it. *)
Record Time := mkTime { jd_of : Q; format : date_format }.

Definition MJD_ZERO : Q := 2400000.5.

(** [Time(val, format=fmt)] *)
Definition Time_init (val : Q) (fmt : date_format) : Time :=
  match fmt with
  | mjd => mkTime (val + MJD_ZERO) mjd
  | jd => mkTime val jd
  end.

(** [t.format = fmt] *)
Definition set_format (t : Time) (fmt : date_format) : Time :=
  mkTime (jd_of t) fmt.

(** [t.value] *)
Definition value (t : Time) : Q :=
  match format t with
  | mjd => jd_of t - MJD_ZERO
  | jd => jd_of t
  end.

(** The body of [convert_to_jd] (utils.py, lines 42-54), on one scalar. *)
Definition convert_to_jd (date : Q) : Q :=
  let snoopy_offset := 53000 in
  let mjd_offset := 2400000.5 in
  let date_format := mjd in
  let '(date, date_format) :=
    if Qltb date snoopy_offset then (date + snoopy_offset, date_format)
    else if Qgtb date mjd_offset then (date, jd)
    else (date, date_format) in
  let t := Time_init date date_format in
  let t := set_format t jd in
  value t.

(** [@np.vectorize] (utils.py, line 31): over an array the body is applied
    to each element.  No output type is given to the wrapper, which finds it
    by calling the body on the first element: on an array of size 0 it
    raises [ValueError]. *)
Inductive vectorize_error := SizeZeroInput.

Definition convert_to_jd_vec (dates : list Q) : vectorize_error + list Q :=
  match dates with
  | [] => inl SizeZeroInput
  | _ :: _ => inr (List.map convert_to_jd dates)
  end.

End TimeNormalizer.

(** ** Time normaliser, evaluated in binary64

    The same body on the floats the code computes with; every sum is
    rounded to nearest.  [Time(date, format='mjd')] followed by the read-out
    in JD returns the correctly rounded sum of [date] and 2400000.5, and in
    the JD format returns [date] itself. *)

Module Binary64.

(** Modelled from the spec: [astropy.time.Time] is an external library.
    [Time(val, format=fmt)] read out in the JD format: MJD = JD - 2400000.5,
    the sum rounded once. *)
Definition Time_jd_value (val : float) (fmt : TimeNormalizer.date_format)
  : float :=
  match fmt with
  | TimeNormalizer.mjd => (val + 2400000.5)%float
  | TimeNormalizer.jd => val
  end.

(** The body of [convert_to_jd] (utils.py, lines 42-54), on one float. *)
Definition convert_to_jd (date : float) : float :=
  let snoopy_offset := 53000%float in
  let mjd_offset := 2400000.5%float in
  if (date <? snoopy_offset)%float then
    Time_jd_value (date + snoopy_offset)%float TimeNormalizer.mjd
  else if (mjd_offset <? date)%float then
    Time_jd_value date TimeNormalizer.jd
  else Time_jd_value date TimeNormalizer.mjd.

(** The binary64 numbers next to 2400000.5 are [2^-31] apart; [2^-32] is
    half of that, as a rational and as a float. *)
Definition half_spacing : Q := 1 # 4294967296.
Definition half_spacing_b64 : float := 0x1p-32%float.

(** The binary64 number just above -53000. *)
Definition just_above_minus_53000 : float := next_up (-53000)%float.

End Binary64.

(** ** numpy arrays (one-dimensional) *)

Module Numpy.

(** Binary elementwise operations broadcast: operands of equal length are
    combined position by position, an operand of length one is stretched,
    and any other combination of lengths is a shape error ([None]). *)
Definition broadcast {A B C} (f : A -> B -> C) (a : list A) (b : list B)
  : option (list C) :=
  if Nat.eqb (length a) (length b) then Some (zip_with f a b)
  else match a, b with
       | [x], _ => Some (List.map (f x) b)
       | _, [y] => Some (List.map (fun x => f x y) a)
       | _, _ => None
       end.

(** [a - b], [a / b], [a & b] on arrays.  A quotient by 0 is 0 in [Q],
    where numpy answers inf or nan: the statements whose truth depends on a
    quotient assume nonzero divisors. *)
Definition sub : list Q -> list Q -> option (list Q) := broadcast Qminus.
Definition div : list Q -> list Q -> option (list Q) := broadcast Qdiv.
Definition and_ : list bool -> list bool -> option (list bool) := broadcast andb.

(** [a ** 2] on an array. *)
Definition square (a : list Q) : list Q := List.map (fun x => x ^ 2) a.

(** [np.sum(a)], as an exact sum: no statement below relies on the order
    in which the terms are added. *)
Definition sum (a : list Q) : Q := fold_right Qplus 0 a.

(** [a >= s], [a <= s] for an array (or list) [a] and a numpy scalar [s]. *)
Definition ge_scalar (a : list Q) (s : Q) : list bool :=
  List.map (fun x => Qgeb x s) a.
Definition le_scalar (a : list Q) (s : Q) : list bool :=
  List.map (fun x => Qle_bool x s) a.

End Numpy.

(** ** Chi-squared primitive (utils.py, lines 16-28) *)

Definition chisq (data error model : list Q) : option Q :=
  r ← Numpy.sub data model;
  q ← Numpy.div r error;
  Some (Numpy.sum (Numpy.square q)).

(** The summand of index [i] in [sum(((data - model) / error) ** 2)]. *)
Definition term (data error model : list Q) (i : nat) : Q :=
  ((nth i data 0 - nth i model 0) / nth i error 0) ^ 2.

(** ** Data model of the residual evaluator *)

(** One record of an sncosmo input table: the columns the code and
    [sncosmo.chisq] read. *)
Record Row := mkRow { time : Q; band : string; flux : Q; fluxerr : Q }.

(** An astropy [Table], row by row, in table order. *)
Definition Table := list Row.

(** What [sncosmo.get_bandpass(name)] resolves to: the wavelength support. *)
Module Bandpass.
Record t := mk { minwave : Q; maxwave : Q }.
End Bandpass.

(** An sncosmo [Model] at its currently set parameters. *)
Module Model.
Record t := mk {
  mintime : Q;
  maxtime : Q;
  minwave : Q;
  maxwave : Q;
  bandflux : string -> Q -> Q
}.
End Model.

(** An sncosmo fitting result: the names of the varied parameters. *)
Record Result := mkResult { vparam_names : list string }.

(** ** Store, exceptions and the monad of Python computations *)

Inductive Exception :=
| ValueError (msg : string)
| IndexError
| BandpassNotRegistered (name : string)
| DanglingReference.

Definition loc := positive.

Definition Py (A : Type) : Type :=
  gmap loc Table -> (Exception + A) * gmap loc Table.

Definition ret {A} (a : A) : Py A := fun h => (inr a, h).

Definition raise {A} (e : Exception) : Py A := fun h => (inl e, h).

Definition bind {A B} (m : Py A) (k : A -> Py B) : Py B :=
  fun h => match m h with
           | (inr a, h') => k a h'
           | (inl e, h') => (inl e, h')
           end.

Declare Scope py_scope.
Delimit Scope py_scope with py.
Notation "x <- m ;; k" := (bind m (fun x => k))
  (at level 100, m at next level, right associativity) : py_scope.

Local Open Scope py_scope.

(** Allocation of a new table object. *)
Definition alloc (t : Table) : Py loc :=
  fun h => let l := fresh (dom h) in (inr l, <[l := t]> h).

(** Reading the table a reference designates. *)
Definition deref (l : loc) : Py Table :=
  fun h => match h !! l with
           | Some t => (inr t, h)
           | None => (inl DanglingReference, h)
           end.

(** [deepcopy(data)] *)
Definition deepcopy (data : loc) : Py loc :=
  t <- deref data ;; alloc t.

(** [data[name]] for a column name: the values of that column. *)
Definition getitem_col {A} (col : Row -> A) (data : loc) : Py (list A) :=
  t <- deref data ;; ret (List.map col t).

(** [data[mask]] for a boolean array: a new table of the rows whose mask
    entry is set; a mask of the wrong length is an [IndexError]. *)
Definition select (mask : list bool) (t : Table) : Table :=
  List.map fst (List.filter snd (zip t mask)).

Definition getitem_mask (data : loc) (mask : list bool) : Py loc :=
  t <- deref data ;;
  if Nat.eqb (length mask) (length t) then alloc (select mask t)
  else raise IndexError.

(** [len(data)] *)
Definition len (data : loc) : Py Z :=
  t <- deref data ;; ret (Z.of_nat (length t)).

(** A numpy operation that may fail with a shape error. *)
Definition of_numpy {A} (o : option A) : Py A :=
  match o with
  | Some a => ret a
  | None => raise (ValueError "operands could not be broadcast together")
  end.

(** A list comprehension [[f(b) for b in xs]]. *)
Fixpoint comprehension {A B} (f : A -> Py B) (xs : list A) : Py (list B) :=
  match xs with
  | [] => ret []
  | x :: xs' => y <- f x ;; ys <- comprehension f xs' ;; ret (y :: ys)
  end.

(** A computation leaves every table of the store as it found it: whatever
    it returns or raises, the final store agrees with the initial one on all
    references that were live. *)
Definition preserves_store {A} (m : Py A) : Prop :=
  forall h : gmap loc Table, h ⊆ snd (m h).

(** ** Residual evaluator (utils.py, lines 135-167) *)

Section ResidualEvaluator.

(** The bandpass registry of sncosmo, as registered when the call is made:
    [sncosmo.get_bandpass] fails on a name that is not registered. *)
Variable registry : gmap string Bandpass.t.

(** [sncosmo.chisq(data, model)], an external library function: it reads
    the table and the model and yields a number. *)
Variable sncosmo_chisq_fn : Table -> Model.t -> Q.

Definition get_bandpass (name : string) : Py Bandpass.t :=
  match registry !! name with
  | Some bp => ret bp
  | None => raise (BandpassNotRegistered name)
  end.

Definition sncosmo_chisq (data : loc) (model : Model.t) : Py Q :=
  t <- deref data ;; ret (sncosmo_chisq_fn t model).

Definition calc_model_chisq (data : loc) (result : Result) (model : Model.t)
  : Py (Q * Z) :=
  data <- deepcopy data ;;
  (* Drop any data that is not within the model's range *)
  bands <- getitem_col band data ;;
  min_band_wave <-
    comprehension (fun b => bp <- get_bandpass b ;; ret (Bandpass.minwave bp))
                  bands ;;
  bands <- getitem_col band data ;;
  max_band_wave <-
    comprehension (fun b => bp <- get_bandpass b ;; ret (Bandpass.maxwave bp))
                  bands ;;
  times <- getitem_col time data ;;
  let m1 := Numpy.ge_scalar times (Model.mintime model) in
  times <- getitem_col time data ;;
  let m2 := Numpy.le_scalar times (Model.maxtime model) in
  m12 <- of_numpy (Numpy.and_ m1 m2) ;;
  let m3 := Numpy.ge_scalar min_band_wave (Model.minwave model) in
  m123 <- of_numpy (Numpy.and_ m12 m3) ;;
  let m4 := Numpy.le_scalar max_band_wave (Model.maxwave model) in
  mask <- of_numpy (Numpy.and_ m123 m4) ;;
  data <- getitem_mask data mask ;;
  n <- len data ;;
  if Z.eqb n 0 then raise (ValueError "No data within model range")
  else
    c <- sncosmo_chisq data model ;;
    n <- len data ;;
    ret (c, (n - Z.of_nat (length (vparam_names result)))%Z).

(** The test of lines 158-161 on one row, given its resolved bandpass. *)
Definition in_range (model : Model.t) (r : Row) (bp : Bandpass.t) : bool :=
  Qgeb (time r) (Model.mintime model)
  && Qle_bool (time r) (Model.maxtime model)
  && Qgeb (Bandpass.minwave bp) (Model.minwave model)
  && Qle_bool (Bandpass.maxwave bp) (Model.maxwave model).

(** The same test on a row of a table; a row whose band is not
    registered is never retained (the call fails before filtering). *)
Definition retained (model : Model.t) (r : Row) : bool :=
  match registry !! band r with
  | Some bp => in_range model r bp
  | None => false
  end.

(** A wavelength bound of the bandpass a row names, once resolved. *)
Definition wave (g : Bandpass.t -> Q) (r : Row) : Q :=
  match registry !! band r with
  | Some bp => g bp
  | None => 0
  end.

(** The outcome of a call on a table whose bands are all registered:
    two tables are allocated (the copy and the selection), and the
    result is decided by the selection alone. *)
Definition outcome (rows : Table) (result : Result) (model : Model.t)
  : Exception + (Q * Z) :=
  match rows with
  | [] => inl (ValueError "No data within model range")
  | _ :: _ =>
      inr (sncosmo_chisq_fn rows model,
           (Z.of_nat (length rows)
            - Z.of_nat (length (vparam_names result)))%Z)
  end.

(** The model's valid time/wavelength domain, as a proposition on a row:
    its time within the model's time range and the span of its bandpass
    within the model's wavelength range. *)
Definition in_domain (model : Model.t) (r : Row) : Prop :=
  (Model.mintime model <= time r /\ time r <= Model.maxtime model) /\
  exists bp, registry !! band r = Some bp /\
             Model.minwave model <= Bandpass.minwave bp /\
             Bandpass.maxwave bp <= Model.maxwave model.

(** Every band named in the table is registered. *)
Definition registered (t : Table) : Prop :=
  Forall (fun r => is_Some (registry !! band r)) t.

End ResidualEvaluator.

(** Modelled from the spec: [sncosmo.chisq] belongs to an external library.
    Steps 5 and 6 of the residual evaluator: the model predicts a value for
    each row from its band and time, and the result is the sum over the rows
    of [((observed_value - model_value) / error) ** 2]. *)
Definition sncosmo_chisq_spec (data : Table) (model : Model.t) : Q :=
  Numpy.sum
    (List.map
       (fun r => ((flux r - Model.bandflux model (band r) (time r))
                  / fluxerr r) ^ 2)
       data).

(** ** Published CSP values (utils.py, lines 57-117) *)

Module CSP.

(** The exceptions of these functions: the package's own [NoCSPData], and
    the [KeyError] and [IndexError] of the containers they index. *)
Inductive Error :=
| NoCSPData (msg : string)
| KeyError (key : string)
| IndexError.

(** A row of table 3 of CSP DR3: the object and its masked column
    [T(Bmax)], a value together with its mask bit. *)
Record T0Row := mkT0 { SN : string; TBmax : Q; TBmax_mask : bool }.

(** A row of table 1 of CSP DR1: the object and its [E(B-V)]. *)
Record EbvRow := mkEbv { ebv_SN : string; EBV : Q }.

(** The identifiers of a column are held by numpy as fixed-width strings,
    padded with NUL characters: no entry ends in NUL, and a comparison with
    an identifier disregards the NULs at its end.  The comparisons below are
    those of the code for an identifier that does not end in NUL, which is
    what the statements on the look-ups assume of the identifier asked
    for. *)
Definition ends_with_nul (s : string) : bool :=
  match String.length s with
  | O => false
  | S n => match String.get n s with
           | Some c => Ascii.eqb c Ascii.zero
           | None => false
           end
  end.

(** [obj_id in column] *)
Definition contains (obj_id : string) (column : list string) : bool :=
  existsb (String.eqb obj_id) column.

(** [column[0]] *)
Definition first {A} (column : list A) : Error + A :=
  match column with
  | x :: _ => inr x
  | [] => inl IndexError
  end.

Section Tables.

(** What [dr3.load_table(3)] and [dr1.load_table(1)] return. *)
Variable table3 : list T0Row.
Variable table1 : list EbvRow.

Definition get_csp_t0 (obj_id : string) : Error + Q :=
  let params := table3 in
  let params := List.filter (fun r => negb (TBmax_mask r)) params in
  if negb (contains obj_id (List.map SN params)) then
    inl (NoCSPData (String.append "No published t0 for " obj_id))
  else
    match first (List.map TBmax
                   (List.filter (fun r => String.eqb (SN r) obj_id) params))
    with
    | inr v => inr (v + 2400000.5)
    | inl e => inl e
    end.

Definition get_csp_ebv (obj_id : string) : Error + Q :=
  let extinction_table := table1 in
  if negb (contains obj_id (List.map ebv_SN extinction_table)) then
    inl (NoCSPData (String.append "No published E(B-V) for " obj_id))
  else
    let data_for_target :=
      List.filter (fun r => String.eqb (ebv_SN r) obj_id) extinction_table in
    first (List.map EBV data_for_target).

(** [filter_has_csp_data(data_table)], on the [meta] dictionary of the
    table: only [NoCSPData] is caught. *)
Definition filter_has_csp_data (meta : gmap string string) : Error + bool :=
  match meta !! "obj_id" with
  | None => inl (KeyError "obj_id")
  | Some obj_id =>
      match get_csp_t0 obj_id with
      | inl (NoCSPData _) => inr false
      | inl e => inl e
      | inr _ =>
          match get_csp_ebv obj_id with
          | inl (NoCSPData _) => inr false
          | inl e => inl e
          | inr _ => inr true
          end
      end
  end.

(** The object has a published, unmasked time of maximum. *)
Definition has_t0 (obj_id : string) : Prop :=
  exists r, In r table3 /\ SN r = obj_id /\ TBmax_mask r = false.

(** The object has a published colour excess. *)
Definition has_ebv (obj_id : string) : Prop :=
  exists r, In r table1 /\ ebv_SN r = obj_id.

End Tables.

End CSP.

(** Published values in the shape of the tables, for the statements on
    the look-ups: a masked entry, an entry missing from DR1, and a
    complete one. *)
Module CSPSample.

Definition table3 : list CSP.T0Row :=
  [ CSP.mkT0 "2004dt" 0 true;
    CSP.mkT0 "2009ds" 55000.25 false;
    CSP.mkT0 "2005kc" 53697.61 false ].

Definition table1 : list CSP.EbvRow :=
  [ CSP.mkEbv "2004dt" 0.02; CSP.mkEbv "2005kc" 0.132 ].

Definition meta (obj_id : string) : gmap string string :=
  {[ "obj_id" := obj_id ]}.

End CSPSample.

(** ** A small concrete setting, used to exercise the statements below *)

Module Sample.

Definition registry : gmap string Bandpass.t :=
  {[ "csp_B" := Bandpass.mk 3600 5600; "csp_H" := Bandpass.mk 14800 18200 ]}.

(** A model valid for times in [0, 50] and wavelengths in [3000, 9000]
    that predicts a flux of 2 everywhere. *)
Definition model : Model.t := Model.mk 0 50 3000 9000 (fun _ _ => 2).

Definition inside1 : Row := mkRow 10 "csp_B" 3 1.
Definition inside2 : Row := mkRow 20 "csp_B" 4 2.
Definition too_late : Row := mkRow 60 "csp_B" 5 1.
Definition too_red : Row := mkRow 10 "csp_H" 5 1.

Definition table : Table := [inside1; too_late; inside2].
Definition outside : Table := [too_late; too_red].

Definition store : gmap loc Table :=
  {[ 1%positive := table; 2%positive := outside;
     3%positive := table ++ outside ]}.

Definition one_param : Result := mkResult ["t0"].
Definition three_params : Result := mkResult ["t0"; "x0"; "x1"].

End Sample.

(** A table one of whose rows names a band that is not registered; the row
    is also far outside the model's time range. *)
Module SampleUnregistered.

Definition unknown : Row := mkRow 999 "sdss_u" 1 1.

Definition table : Table := [Sample.inside1; unknown; Sample.inside2].

Definition store : gmap loc Table := {[ 1%positive := table ]}.

(** The sample table, and the same table with the unregistered row
    appended. *)
Definition appended : gmap loc Table :=
  {[ 1%positive := Sample.table; 2%positive := Sample.table ++ [unknown] ]}.

End SampleUnregistered.

(** * Properties *)

(** ** Comparisons *)

Lemma Qltb_lt x y : Qltb x y = true <-> x < y.
Proof.
  unfold Qltb. rewrite negb_true_iff, <- not_true_iff_false, Qle_bool_iff.
  split; [apply Qnot_le_lt | apply Qlt_not_le].
Qed.

Lemma Qltb_ge x y : Qltb x y = false <-> y <= x.
Proof. unfold Qltb. rewrite negb_false_iff. apply Qle_bool_iff. Qed.

Lemma Qgeb_ge x y : Qgeb x y = true <-> y <= x.
Proof. apply Qle_bool_iff. Qed.

(** ** Time normaliser *)

Section TimeNormalizerFacts.
Import TimeNormalizer.

(** The three branches of the classifier, as equations of the body. *)
Lemma convert_snoopy x :
  x < 53000 -> convert_to_jd x = x + 53000 + 2400000.5.
Proof.
  intros H. unfold convert_to_jd.
  apply Qltb_lt in H. rewrite H. reflexivity.
Qed.

Lemma convert_mjd x :
  53000 <= x -> x <= 2400000.5 -> convert_to_jd x = x + 2400000.5.
Proof.
  intros H1 H2. unfold convert_to_jd, Qgtb.
  apply Qltb_ge in H1, H2. rewrite H1, H2. reflexivity.
Qed.

Lemma convert_jd x :
  2400000.5 < x -> convert_to_jd x = x.
Proof.
  intros H. unfold convert_to_jd, Qgtb.
  assert (H1 : 53000 <= x) by lra.
  apply Qltb_ge in H1. apply Qltb_lt in H. rewrite H1, H. reflexivity.
Qed.

Lemma convert_cases x :
  (x < 53000 /\ convert_to_jd x = x + 53000 + 2400000.5) \/
  (53000 <= x /\ x <= 2400000.5 /\ convert_to_jd x = x + 2400000.5) \/
  (2400000.5 < x /\ convert_to_jd x = x).
Proof.
  destruct (Qlt_le_dec x 53000) as [H | H].
  - left. split; [exact H | now apply convert_snoopy].
  - destruct (Qlt_le_dec 2400000.5 x) as [H' | H'].
    + right; right. split; [exact H' | now apply convert_jd].
    + right; left. repeat split; try assumption. now apply convert_mjd.
Qed.

End TimeNormalizerFacts.

Section TimeNormalizerClaims.
Import TimeNormalizer.

(** C3.  Applied to each scalar element on its own, [convert_to_jd] maps
    [x < 53000] to [x + 53000 + 2400000.5] (Snoopy), [53000 <= x <=
    2400000.5] to [x + 2400000.5] (MJD, both end points included), and
    [x > 2400000.5] to [x] (JD).  The inputs 500, 53500 and 2453500.5 all
    normalise to 2453500.5.  On a non-empty array each element is converted
    on its own; an array of size 0 is refused by the vectorising wrapper. *)
Theorem convert_to_jd_classifies :
  (forall x : Q,
      (x < 53000 -> convert_to_jd x == x + 53000 + 2400000.5) /\
      (53000 <= x -> x <= 2400000.5 -> convert_to_jd x == x + 2400000.5) /\
      (2400000.5 < x -> convert_to_jd x == x)) /\
  convert_to_jd 53000 == 53000 + 2400000.5 /\
  convert_to_jd 2400000.5 == 2400000.5 + 2400000.5 /\
  convert_to_jd 500 == 2453500.5 /\
  convert_to_jd 53500 == 2453500.5 /\
  convert_to_jd 2453500.5 == 2453500.5 /\
  (forall dates : list Q,
      dates <> [] ->
      exists out,
        convert_to_jd_vec dates = inr out /\
        length out = length dates /\
        forall i : nat,
          nth_error out i = option_map convert_to_jd (nth_error dates i)) /\
  convert_to_jd_vec [] = inl SizeZeroInput.
Proof.
  split; [| repeat split; try reflexivity].
  - intros x. repeat split.
    + intros H. now rewrite convert_snoopy.
    + intros H1 H2. now rewrite convert_mjd.
    + intros H. now rewrite convert_jd.
  - intros [| d dates] Hne; [congruence |].
    exists (List.map convert_to_jd (d :: dates)).
    split; [reflexivity | split].
    + apply length_map.
    + intros i. apply nth_error_map.
Qed.

Lemma convert_to_jd_classifies_witness :
  500 < 53000 /\ convert_to_jd 500 == 500 + 53000 + 2400000.5.
Proof.
  split; [reflexivity |].
  apply (proj1 (proj1 convert_to_jd_classifies 500)). reflexivity.
Defined.

(** C6, at the threshold.  The input 2400000.5 is at the threshold, yet
    normalising it twice does not give it back: it is read as MJD. *)
Lemma convert_twice_at_threshold :
  2400000.5 <= 2400000.5 /\
  ~ convert_to_jd (convert_to_jd 2400000.5) == 2400000.5.
Proof. split; [apply Qle_refl | intros H; vm_compute in H; discriminate]. Qed.

(** C6, amended.  For every [x] strictly above 2400000.5, normalising
    twice gives [x] back. *)
Theorem convert_twice_above_threshold (x : Q) :
  2400000.5 < x -> convert_to_jd (convert_to_jd x) == x.
Proof. intros H. rewrite !convert_jd; [reflexivity | assumption | now rewrite convert_jd]. Qed.

Lemma convert_twice_above_threshold_witness :
  2400000.5 < 2453500.5 /\
  convert_to_jd (convert_to_jd 2453500.5) == 2453500.5.
Proof.
  split; [reflexivity |].
  apply (convert_twice_above_threshold 2453500.5). reflexivity.
Defined.

(** C10, just above -53000.  The binary64 number next above -53000 is
    greater than -53000, yet its normalisation is exactly 2400000.5, not
    more: the sum is rounded.  That value is read as MJD, so a second
    application gives 4800001. *)
Lemma convert_to_jd_rounds_onto_threshold :
  (-53000 <? Binary64.just_above_minus_53000)%float = true /\
  Binary64.convert_to_jd Binary64.just_above_minus_53000 = 2400000.5%float /\
  (2400000.5
   <? Binary64.convert_to_jd Binary64.just_above_minus_53000)%float = false /\
  Binary64.convert_to_jd
    (Binary64.convert_to_jd Binary64.just_above_minus_53000)
  = 4800001%float.
Proof. repeat split; reflexivity. Qed.

(** C10, amended.  For every [x > -53000 + 2^-32] one application already
    lands strictly above 2400000.5, so a second one changes nothing.  The
    bound is where rounding decides: in binary64 the input
    [-53000 + 2^-32] itself is still normalised to exactly 2400000.5, the
    next number above it to a value above 2400000.5 that a second
    application returns as it is.  At [x = -53000] a second application
    does change the value. *)
Theorem convert_to_jd_fixed_point :
  (forall x : Q,
      - (53000) + Binary64.half_spacing < x ->
      2400000.5 < convert_to_jd x /\
      convert_to_jd (convert_to_jd x) == convert_to_jd x) /\
  ~ convert_to_jd (convert_to_jd (- (53000))) == convert_to_jd (- (53000)) /\
  Binary64.convert_to_jd (-53000 + Binary64.half_spacing_b64)%float
  = 2400000.5%float /\
  (let y := Binary64.convert_to_jd
              (next_up (-53000 + Binary64.half_spacing_b64))%float in
   (2400000.5 <? y)%float = true /\ Binary64.convert_to_jd y = y).
Proof.
  split; [| split; [| split; [reflexivity | split; reflexivity]]].
  - intros x Hx. unfold Binary64.half_spacing in Hx.
    assert (Hgt : 2400000.5 < convert_to_jd x).
    { destruct (convert_cases x) as [[H E] | [[H1 [H2 E]] | [H E]]];
        rewrite E; lra. }
    split; [exact Hgt |]. now rewrite (convert_jd _ Hgt).
  - intros H; vm_compute in H; discriminate.
Qed.

Lemma convert_to_jd_fixed_point_witness :
  - (53000) + Binary64.half_spacing < 0 /\
  2400000.5 < convert_to_jd 0 /\
  convert_to_jd (convert_to_jd 0) == convert_to_jd 0.
Proof.
  split; [reflexivity |].
  apply (proj1 convert_to_jd_fixed_point 0). reflexivity.
Defined.

End TimeNormalizerClaims.

(** ** Chi-squared primitive *)

Section ChisqFacts.

Lemma broadcast_same_length {A B C} (f : A -> B -> C) a b :
  length a = length b -> Numpy.broadcast f a b = Some (zip_with f a b).
Proof.
  intros H. unfold Numpy.broadcast.
  now rewrite (proj2 (Nat.eqb_eq _ _) H).
Qed.

Lemma chisq_same_length data error model :
  length data = length model ->
  length error = length data ->
  chisq data error model
  = Some (Numpy.sum (Numpy.square
            (zip_with Qdiv (zip_with Qminus data model) error))).
Proof.
  intros Hm He. unfold chisq, Numpy.sub, Numpy.div.
  rewrite broadcast_same_length by assumption. simpl.
  rewrite broadcast_same_length; [reflexivity |].
  rewrite length_zip_with. lia.
Qed.

Lemma terms_shift d e m ds es ms n :
  List.map (term (d :: ds) (e :: es) (m :: ms)) (seq 1 n)
  = List.map (term ds es ms) (seq 0 n).
Proof. rewrite <- seq_shift, List.map_map. reflexivity. Qed.

Lemma square_zip_terms data : forall error model,
  length data = length model ->
  length error = length data ->
  Numpy.square (zip_with Qdiv (zip_with Qminus data model) error)
  = List.map (term data error model) (seq 0 (length data)).
Proof.
  induction data as [| d ds IH]; intros [| e es] [| m ms] Hm He;
    simpl in *; try discriminate; [reflexivity |].
  rewrite terms_shift. f_equal. apply IH; lia.
Qed.

Lemma sum_zero (l : list Q) :
  Forall (fun x => x == 0) l -> Numpy.sum l == 0.
Proof.
  induction 1 as [| x l Hx _ IH]; simpl; [reflexivity |].
  rewrite Hx, IH. reflexivity.
Qed.

Lemma term_perfect data error i :
  ~ nth i error 0 == 0 -> term data error data i == 0.
Proof. intros H. unfold term. field. exact H. Qed.

Lemma nth_nonzero (error : list Q) i :
  Forall (fun e => ~ e == 0) error -> (i < length error)%nat ->
  ~ nth i error 0 == 0.
Proof.
  intros H Hi. rewrite List.Forall_forall in H. apply H, nth_In, Hi.
Qed.

End ChisqFacts.

(** C4.  On equal-length inputs [chisq(data, error, model)] returns
    [sum(((data - model) / error) ** 2)], the sum over all indices of the
    squared normalised residual; for [data = model] and nonzero errors the
    value is 0. *)
Theorem chisq_is_sum_of_squared_residuals :
  forall data error model : list Q,
    length data = length model ->
    length error = length data ->
    chisq data error model
    = Some (Numpy.sum (List.map (term data error model)
                                (seq 0 (length data)))) /\
    (Forall (fun e => ~ e == 0) error ->
     exists v, chisq data error data = Some v /\ v == 0).
Proof.
  intros data error model Hm He. split.
  - rewrite chisq_same_length, square_zip_terms by assumption. reflexivity.
  - intros Hnz. eexists. split.
    + rewrite chisq_same_length, square_zip_terms by (assumption || reflexivity).
      reflexivity.
    + apply sum_zero, List.Forall_forall. intros x Hx.
      apply List.in_map_iff in Hx as [i [<- Hi]]. apply in_seq in Hi.
      apply term_perfect, nth_nonzero; [assumption | lia].
Qed.

Lemma chisq_is_sum_of_squared_residuals_witness :
  chisq [3; 5] [1; 2] [1; 1]
  = Some (Numpy.sum (List.map (term [3; 5] [1; 2] [1; 1]) (seq 0 2))) /\
  exists v, chisq [3; 5] [1; 2] [3; 5] = Some v /\ v == 0.
Proof.
  split.
  - apply (chisq_is_sum_of_squared_residuals [3; 5] [1; 2] [1; 1]);
      reflexivity.
  - apply (chisq_is_sum_of_squared_residuals [3; 5] [1; 2] [1; 1]);
      [reflexivity | reflexivity |].
    repeat constructor; intros H; vm_compute in H; discriminate.
Defined.

(** ** Running the monad *)

Section Run.

Lemma bind_inr {A B} (m : Py A) (k : A -> Py B) h a h' :
  m h = (inr a, h') -> bind m k h = k a h'.
Proof. intros H. unfold bind. now rewrite H. Qed.

Lemma bind_inl {A B} (m : Py A) (k : A -> Py B) h e h' :
  m h = (inl e, h') -> bind m k h = (inl e, h').
Proof. intros H. unfold bind. now rewrite H. Qed.

Lemma deref_run l (h : gmap loc Table) t :
  h !! l = Some t -> deref l h = (inr t, h).
Proof. intros H. unfold deref. now rewrite H. Qed.

Lemma alloc_lookup (h : gmap loc Table) t :
  <[fresh (dom h) := t]> h !! fresh (dom h) = Some t.
Proof. apply lookup_insert_eq. Qed.

Lemma deepcopy_run l (h : gmap loc Table) t :
  h !! l = Some t ->
  deepcopy l h = (inr (fresh (dom h)), <[fresh (dom h) := t]> h).
Proof.
  intros H. unfold deepcopy.
  rewrite (bind_inr _ _ _ _ _ (deref_run _ _ _ H)). reflexivity.
Qed.

Lemma getitem_col_run {A} (col : Row -> A) l (h : gmap loc Table) t :
  h !! l = Some t -> getitem_col col l h = (inr (List.map col t), h).
Proof.
  intros H. unfold getitem_col.
  rewrite (bind_inr _ _ _ _ _ (deref_run _ _ _ H)). reflexivity.
Qed.

Lemma getitem_mask_run l (h : gmap loc Table) t mask :
  h !! l = Some t -> length mask = length t ->
  getitem_mask l mask h
  = (inr (fresh (dom h)), <[fresh (dom h) := select mask t]> h).
Proof.
  intros H Hlen. unfold getitem_mask.
  rewrite (bind_inr _ _ _ _ _ (deref_run _ _ _ H)).
  now rewrite (proj2 (Nat.eqb_eq _ _) Hlen).
Qed.

Lemma len_run l (h : gmap loc Table) t :
  h !! l = Some t -> len l h = (inr (Z.of_nat (length t)), h).
Proof.
  intros H. unfold len.
  rewrite (bind_inr _ _ _ _ _ (deref_run _ _ _ H)). reflexivity.
Qed.

Lemma and_map {A} (p q : A -> bool) (t : list A) :
  Numpy.and_ (List.map p t) (List.map q t)
  = Some (List.map (fun r => p r && q r) t).
Proof.
  unfold Numpy.and_. rewrite broadcast_same_length
    by (now rewrite !length_map).
  f_equal. induction t as [| r t IH]; simpl; [reflexivity | now rewrite IH].
Qed.

Lemma select_map (p : Row -> bool) (t : Table) :
  select (List.map p t) t = List.filter p t.
Proof.
  unfold select. induction t as [| r t IH]; simpl; [reflexivity |].
  destruct (p r); simpl; now rewrite IH.
Qed.

End Run.

(** ** Residual evaluator: what a call computes *)

Section ResidualFacts.

Variable registry : gmap string Bandpass.t.
Variable f : Table -> Model.t -> Q.

Lemma comprehension_bandpass (g : Bandpass.t -> Q) (t : Table) h :
  registered registry t ->
  comprehension
    (fun b => bp <- get_bandpass registry b ;; ret (g bp))
    (List.map band t) h
  = (inr (List.map (wave registry g) t), h).
Proof.
  induction 1 as [| r t [bp Hbp] _ IH]; simpl; [reflexivity |].
  unfold bind at 1. unfold bind at 1. unfold get_bandpass at 1.
  rewrite Hbp. simpl. unfold bind at 1. rewrite IH.
  unfold ret, wave. now rewrite Hbp.
Qed.

Lemma comprehension_unregistered (g : Bandpass.t -> Q) (t : Table) h :
  ~ registered registry t ->
  exists name,
    comprehension
      (fun b => bp <- get_bandpass registry b ;; ret (g bp))
      (List.map band t) h
    = (inl (BandpassNotRegistered name), h).
Proof.
  induction t as [| r t IH]; intros Hn.
  - destruct Hn. constructor.
  - simpl. unfold bind at 1. unfold bind at 1. unfold get_bandpass at 1.
    destruct (registry !! band r) as [bp |] eqn:Hbp; simpl.
    + destruct IH as [name IH].
      { intros Ht. apply Hn. constructor; [now exists bp | exact Ht]. }
      exists name. unfold bind at 1. now rewrite IH.
    + now exists (band r).
Qed.

(** The mask of lines 158-161, row by row. *)
Lemma mask_retained model (t : Table) :
  registered registry t ->
  List.filter
    (fun r =>
       Qgeb (time r) (Model.mintime model)
       && Qle_bool (time r) (Model.maxtime model)
       && Qgeb (wave registry Bandpass.minwave r) (Model.minwave model)
       && Qle_bool (wave registry Bandpass.maxwave r) (Model.maxwave model)) t
  = List.filter (retained registry model) t.
Proof.
  intros Hreg. apply List.filter_ext_in. intros r Hr.
  unfold registered in Hreg. rewrite List.Forall_forall in Hreg. destruct (Hreg r Hr) as [bp Hbp].
  unfold wave, retained, in_range. now rewrite Hbp.
Qed.

Lemma calc_model_chisq_run (h : gmap loc Table) l data result model :
  h !! l = Some data ->
  registered registry data ->
  let h1 := <[fresh (dom h) := data]> h in
  let rows := List.filter (retained registry model) data in
  calc_model_chisq registry f l result model h
  = (outcome f rows result model, <[fresh (dom h1) := rows]> h1).
Proof.
  intros Hl Hreg h1 rows. unfold calc_model_chisq.
  rewrite (bind_inr _ _ _ _ _ (deepcopy_run _ _ _ Hl)). fold h1.
  assert (H1 : h1 !! fresh (dom h) = Some data) by apply alloc_lookup.
  rewrite (bind_inr _ _ _ _ _ (getitem_col_run band _ _ _ H1)).
  rewrite (bind_inr _ _ _ _ _
             (comprehension_bandpass Bandpass.minwave _ h1 Hreg)).
  rewrite (bind_inr _ _ _ _ _ (getitem_col_run band _ _ _ H1)).
  rewrite (bind_inr _ _ _ _ _
             (comprehension_bandpass Bandpass.maxwave _ h1 Hreg)).
  rewrite (bind_inr _ _ _ _ _ (getitem_col_run time _ _ _ H1)).
  rewrite (bind_inr _ _ _ _ _ (getitem_col_run time _ _ _ H1)).
  unfold Numpy.ge_scalar, Numpy.le_scalar.
  rewrite !List.map_map, and_map. simpl of_numpy.
  unfold bind at 1, ret at 1. rewrite and_map. simpl of_numpy.
  unfold bind at 1, ret at 1. rewrite and_map. simpl of_numpy.
  unfold bind at 1, ret at 1.
  erewrite bind_inr
    by (apply getitem_mask_run; [exact H1 | apply length_map]).
  rewrite select_map, mask_retained by assumption. fold rows.
  set (h2 := <[fresh (dom h1) := rows]> h1).
  assert (H2 : h2 !! fresh (dom h1) = Some rows) by apply alloc_lookup.
  rewrite (bind_inr _ _ _ _ _ (len_run _ _ _ H2)).
  destruct rows as [| r rows']; [reflexivity |].
  change (Z.of_nat (length (r :: rows')) =? 0)%Z with false. cbv iota.
  unfold sncosmo_chisq.
  rewrite (bind_inr _ _ _ _ _
             (bind_inr _ _ _ _ _ (deref_run _ _ _ H2))).
  rewrite (bind_inr _ _ _ _ _ (len_run _ _ _ H2)). reflexivity.
Qed.

End ResidualFacts.

(** ** The store only grows *)

Create HintDb frame discriminated.

Section Frame.

Lemma ret_preserves {A} (a : A) : preserves_store (ret a).
Proof. intros h. reflexivity. Qed.

Lemma raise_preserves {A} e : preserves_store (@raise A e).
Proof. intros h. reflexivity. Qed.

Lemma bind_preserves {A B} (m : Py A) (k : A -> Py B) :
  preserves_store m -> (forall a, preserves_store (k a)) ->
  preserves_store (bind m k).
Proof.
  intros Hm Hk h. unfold bind. specialize (Hm h).
  destruct (m h) as [[e | a] h']; simpl in *; [exact Hm |].
  etrans; [exact Hm | apply Hk].
Qed.

Lemma alloc_preserves t : preserves_store (alloc t).
Proof.
  intros h. unfold alloc. simpl.
  apply insert_subseteq, not_elem_of_dom, is_fresh.
Qed.

Lemma deref_preserves l : preserves_store (deref l).
Proof. intros h. unfold deref. now destruct (h !! l). Qed.

Lemma of_numpy_preserves {A} (o : option A) : preserves_store (of_numpy o).
Proof. destruct o; [apply ret_preserves | apply raise_preserves]. Qed.

Hint Resolve ret_preserves raise_preserves alloc_preserves
  deref_preserves of_numpy_preserves : frame.

Ltac frame :=
  repeat first
    [ apply bind_preserves; [| intros ?]
    | solve [auto with frame]
    | match goal with
      | |- preserves_store (if ?b then _ else _) => destruct b
      | |- preserves_store (match ?o with Some _ => _ | None => _ end) =>
          destruct o
      end ].

Lemma deepcopy_preserves l : preserves_store (deepcopy l).
Proof. unfold deepcopy. frame. Qed.

Lemma getitem_col_preserves {A} (col : Row -> A) l :
  preserves_store (getitem_col col l).
Proof. unfold getitem_col. frame. Qed.

Lemma getitem_mask_preserves l mask : preserves_store (getitem_mask l mask).
Proof. unfold getitem_mask. frame. Qed.

Lemma len_preserves l : preserves_store (len l).
Proof. unfold len. frame. Qed.

Lemma comprehension_preserves {A B} (g : A -> Py B) xs :
  (forall x, preserves_store (g x)) -> preserves_store (comprehension g xs).
Proof. intros Hg. induction xs as [| x xs IH]; simpl; frame; auto. Qed.

Lemma get_bandpass_preserves registry name :
  preserves_store (get_bandpass registry name).
Proof. unfold get_bandpass. frame. Qed.

Lemma sncosmo_chisq_preserves f l model :
  preserves_store (sncosmo_chisq f l model).
Proof. unfold sncosmo_chisq. frame. Qed.

Hint Resolve deepcopy_preserves getitem_col_preserves
  getitem_mask_preserves len_preserves get_bandpass_preserves
  sncosmo_chisq_preserves : frame.

Lemma calc_model_chisq_preserves registry f l result model :
  preserves_store (calc_model_chisq registry f l result model).
Proof.
  unfold calc_model_chisq.
  repeat first
    [ apply bind_preserves; [| intros ?]
    | apply comprehension_preserves; intros ?
    | solve [auto with frame]
    | match goal with
      | |- preserves_store (if ?b then _ else _) => destruct b
      end ].
Qed.

End Frame.

(** ** Residual evaluator: selection and failure *)

Section Selection.

Variable registry : gmap string Bandpass.t.
Variable f : Table -> Model.t -> Q.

Lemma retained_in_domain model r :
  retained registry model r = true <-> in_domain registry model r.
Proof.
  unfold retained, in_domain.
  destruct (registry !! band r) as [bp |] eqn:Hbp.
  - unfold in_range. rewrite !andb_true_iff, !Qgeb_ge, !Qle_bool_iff.
    split.
    + intros [[[H1 H2] H3] H4]. split; [now split |].
      exists bp. now repeat split.
    + intros [[H1 H2] [bp' [E [H3 H4]]]]. injection E as <-.
      now repeat split.
  - split; [discriminate |]. intros [_ [bp' [E _]]]. discriminate.
Qed.

Lemma in_domain_registered model (t : Table) :
  Forall (in_domain registry model) t -> registered registry t.
Proof.
  unfold registered. apply List.Forall_impl. intros r [_ [bp [E _]]]. now exists bp.
Qed.

Lemma registered_app (t u : Table) :
  registered registry (t ++ u) <->
  registered registry t /\ registered registry u.
Proof. apply Forall_app. Qed.

Lemma filter_all (p : Row -> bool) (t : Table) :
  Forall (fun r => p r = true) t -> List.filter p t = t.
Proof.
  induction 1 as [| r t Hr _ IH]; simpl; [reflexivity |].
  now rewrite Hr, IH.
Qed.

Lemma filter_none (p : Row -> bool) (t : Table) :
  Forall (fun r => p r = false) t -> List.filter p t = [].
Proof.
  induction 1 as [| r t Hr _ IH]; simpl; [reflexivity |].
  now rewrite Hr, IH.
Qed.

Lemma calc_model_chisq_dangling (h : gmap loc Table) l result model :
  h !! l = None ->
  fst (calc_model_chisq registry f l result model h)
  = inl DanglingReference.
Proof.
  intros H. unfold calc_model_chisq, deepcopy, deref, bind at 1.
  unfold bind at 1. now rewrite H.
Qed.

Lemma calc_model_chisq_unregistered (h : gmap loc Table) l data result model :
  h !! l = Some data ->
  ~ registered registry data ->
  exists name,
    fst (calc_model_chisq registry f l result model h)
    = inl (BandpassNotRegistered name).
Proof.
  intros Hl Hn. unfold calc_model_chisq.
  rewrite (bind_inr _ _ _ _ _ (deepcopy_run _ _ _ Hl)).
  set (h1 := <[fresh (dom h) := data]> h).
  assert (H1 : h1 !! fresh (dom h) = Some data) by apply alloc_lookup.
  rewrite (bind_inr _ _ _ _ _ (getitem_col_run band _ _ _ H1)).
  destruct (comprehension_unregistered registry Bandpass.minwave data h1 Hn)
    as [name E].
  exists name. now rewrite (bind_inl _ _ _ _ _ E).
Qed.

(** A call that returns has read a table all of whose bands are
    registered, has retained at least one row, and returns the outcome
    on the retained rows. *)
Lemma calc_model_chisq_returns (h : gmap loc Table) l result model v :
  fst (calc_model_chisq registry f l result model h) = inr v ->
  exists data r rows,
    h !! l = Some data /\
    registered registry data /\
    List.filter (retained registry model) data = r :: rows /\
    v = (f (r :: rows) model,
         (Z.of_nat (length (r :: rows))
          - Z.of_nat (length (vparam_names result)))%Z).
Proof.
  intros Hv. destruct (h !! l) as [data |] eqn:Hl.
  - destruct (decide (Forall (fun r => is_Some (registry !! band r)) data))
      as [Hreg | Hn].
    + rewrite (calc_model_chisq_run registry f h l data result model Hl Hreg)
        in Hv.
      simpl in Hv. unfold outcome in Hv.
      destruct (List.filter (retained registry model) data)
        as [| r rows] eqn:Hf; [discriminate |].
      injection Hv as <-. now exists data, r, rows.
    + destruct (calc_model_chisq_unregistered h l data result model Hl Hn)
        as [name E].
      rewrite E in Hv. discriminate.
  - rewrite calc_model_chisq_dangling in Hv by assumption. discriminate.
Qed.

End Selection.

(** ** Residual evaluator: the claims *)

Lemma sample_registered_table : registered Sample.registry Sample.table.
Proof. repeat constructor; eexists; reflexivity. Qed.

Lemma sample_registered_all :
  registered Sample.registry (Sample.table ++ Sample.outside).
Proof. repeat constructor; eexists; reflexivity. Qed.

(** C1.  The rows on which the chi-squared is computed are exactly the rows
    of the input table, in table order, whose time [t] satisfies
    [mintime <= t <= maxtime] and whose bandpass satisfies
    [minwave(band) >= model.minwave()] and [maxwave(band) <=
    model.maxwave()]: the band's span is contained in the model's. *)
Theorem retained_iff_in_model_range :
  forall registry f (h : gmap loc Table) l data result model,
    h !! l = Some data ->
    registered registry data ->
    exists rows : Table,
      rows = List.filter (retained registry model) data /\
      (forall r : Row,
          In r rows <->
          In r data /\
          (Model.mintime model <= time r /\ time r <= Model.maxtime model) /\
          exists bp, registry !! band r = Some bp /\
                     Model.minwave model <= Bandpass.minwave bp /\
                     Bandpass.maxwave bp <= Model.maxwave model) /\
      fst (calc_model_chisq registry f l result model h)
      = match rows with
        | [] => inl (ValueError "No data within model range")
        | _ :: _ =>
            inr (f rows model,
                 (Z.of_nat (length rows)
                  - Z.of_nat (length (vparam_names result)))%Z)
        end.
Proof.
  intros registry f h l data result model Hl Hreg.
  exists (List.filter (retained registry model) data).
  split; [reflexivity | split].
  - intros r. rewrite List.filter_In, retained_in_domain. reflexivity.
  - now rewrite (calc_model_chisq_run registry f h l data result model Hl Hreg).
Qed.

Lemma retained_iff_in_model_range_witness :
  exists rows : Table,
    rows = List.filter (retained Sample.registry Sample.model) Sample.table /\
    (forall r : Row,
        In r rows <->
        In r Sample.table /\
        (Model.mintime Sample.model <= time r /\
         time r <= Model.maxtime Sample.model) /\
        exists bp, Sample.registry !! band r = Some bp /\
                   Model.minwave Sample.model <= Bandpass.minwave bp /\
                   Bandpass.maxwave bp <= Model.maxwave Sample.model) /\
    fst (calc_model_chisq Sample.registry sncosmo_chisq_spec 1%positive
           Sample.one_param Sample.model Sample.store)
    = match rows with
      | [] => inl (ValueError "No data within model range")
      | _ :: _ =>
          inr (sncosmo_chisq_spec rows Sample.model,
               (Z.of_nat (length rows)
                - Z.of_nat (length (vparam_names Sample.one_param)))%Z)
      end.
Proof.
  apply (retained_iff_in_model_range Sample.registry sncosmo_chisq_spec
           Sample.store 1%positive Sample.table Sample.one_param Sample.model).
  - reflexivity.
  - exact sample_registered_table.
Defined.

(** C2.  When no row of the table is retained the call raises the
    "No data within model range" error; so it does on a table all of whose
    rows lie outside the model's time bounds; and a call that returns a
    result has retained at least one row. *)
Theorem empty_selection_raises :
  forall registry f (h : gmap loc Table) l result model,
    (forall data,
        h !! l = Some data ->
        registered registry data ->
        (List.filter (retained registry model) data = [] ->
         fst (calc_model_chisq registry f l result model h)
         = inl (ValueError "No data within model range")) /\
        (Forall (fun r => time r < Model.mintime model \/
                          Model.maxtime model < time r) data ->
         fst (calc_model_chisq registry f l result model h)
         = inl (ValueError "No data within model range"))) /\
    (forall v,
        fst (calc_model_chisq registry f l result model h) = inr v ->
        exists data,
          h !! l = Some data /\
          List.filter (retained registry model) data <> []).
Proof.
  intros registry f h l result model. split.
  - intros data Hl Hreg.
    assert (Hempty : List.filter (retained registry model) data = [] ->
                     fst (calc_model_chisq registry f l result model h)
                     = inl (ValueError "No data within model range")).
    { intros E.
      rewrite (calc_model_chisq_run registry f h l data result model Hl Hreg).
      simpl. now rewrite E. }
    split; [exact Hempty |].
    intros Hout. apply Hempty, filter_none.
    revert Hout. apply List.Forall_impl. intros r Hr.
    apply not_true_is_false. rewrite retained_in_domain.
    intros [[H1 H2] _]. destruct Hr as [Hr | Hr]; lra.
  - intros v Hv.
    destruct (calc_model_chisq_returns registry f h l result model v Hv)
      as (data & r & rows & Hl & _ & E & _).
    exists data. split; [exact Hl |]. now rewrite E.
Qed.

Lemma empty_selection_raises_witness :
  fst (calc_model_chisq Sample.registry sncosmo_chisq_spec 2%positive
         Sample.one_param Sample.model Sample.store)
  = inl (ValueError "No data within model range").
Proof.
  refine (proj1 (proj1 (empty_selection_raises
                          Sample.registry sncosmo_chisq_spec Sample.store
                          2%positive Sample.one_param Sample.model)
                   Sample.outside _ _) _).
  - reflexivity.
  - repeat constructor; eexists; reflexivity.
  - reflexivity.
Defined.

(** C5.  The second returned value is the number of retained rows minus the
    number of varied parameters of the fit result, whatever its sign: a call
    with at least one retained row returns, and on a table of [N >= 1] rows
    all inside the model's bounds with [k] varied parameters the value is
    [N - k]. *)
Theorem degrees_of_freedom :
  forall registry f (h : gmap loc Table) l data result model,
    h !! l = Some data ->
    (registered registry data ->
     List.filter (retained registry model) data <> [] ->
     exists c,
       fst (calc_model_chisq registry f l result model h)
       = inr (c, (Z.of_nat (length (List.filter (retained registry model) data))
                  - Z.of_nat (length (vparam_names result)))%Z)) /\
    (data <> [] ->
     Forall (in_domain registry model) data ->
     exists c,
       fst (calc_model_chisq registry f l result model h)
       = inr (c, (Z.of_nat (length data)
                  - Z.of_nat (length (vparam_names result)))%Z)).
Proof.
  intros registry f h l data result model Hl.
  assert (Hgen : registered registry data ->
                 List.filter (retained registry model) data <> [] ->
                 exists c,
                   fst (calc_model_chisq registry f l result model h)
                   = inr (c, (Z.of_nat (length (List.filter
                                                  (retained registry model) data))
                              - Z.of_nat (length (vparam_names result)))%Z)).
  { intros Hreg Hne.
    rewrite (calc_model_chisq_run registry f h l data result model Hl Hreg).
    simpl. destruct (List.filter (retained registry model) data) as [| r rows];
      [congruence |].
    eexists. reflexivity. }
  split; [exact Hgen |].
  intros Hne Hin.
  assert (Hall : List.filter (retained registry model) data = data).
  { apply filter_all. revert Hin. apply List.Forall_impl.
    intros r. apply retained_in_domain. }
  destruct Hgen as [c Hc].
  - now apply in_domain_registered with model.
  - now rewrite Hall.
  - exists c. now rewrite Hc, Hall.
Qed.

Lemma degrees_of_freedom_witness :
  exists c,
    fst (calc_model_chisq Sample.registry sncosmo_chisq_spec 3%positive
           Sample.three_params Sample.model Sample.store)
    = inr (c, (-1)%Z).
Proof.
  refine (proj1 (degrees_of_freedom
                   Sample.registry sncosmo_chisq_spec Sample.store 3%positive
                   (Sample.table ++ Sample.outside) Sample.three_params
                   Sample.model _) _ _).
  - reflexivity.
  - exact sample_registered_all.
  - discriminate.
Defined.

(** The chi-squared of the library, row by row, is the primitive applied to
    the three columns. *)
Lemma sncosmo_chisq_spec_columns (rows : Table) model :
  chisq (List.map flux rows) (List.map fluxerr rows)
        (List.map (fun r => Model.bandflux model (band r) (time r)) rows)
  = Some (sncosmo_chisq_spec rows model).
Proof.
  rewrite chisq_same_length by (now rewrite !length_map).
  f_equal. unfold sncosmo_chisq_spec. f_equal.
  induction rows as [| r rows IH]; simpl; [reflexivity | now rewrite IH].
Qed.

(** C7.  The first returned value is the chi-squared primitive applied to
    the retained rows: the sum over them of [((observed_value - model_value)
    / error) ** 2], the model value being the model's prediction for the
    row's band and time. *)
Theorem chisq_value_over_retained_rows :
  forall registry (h : gmap loc Table) l data result model,
    h !! l = Some data ->
    registered registry data ->
    let rows := List.filter (retained registry model) data in
    rows <> [] ->
    exists c d,
      fst (calc_model_chisq registry sncosmo_chisq_spec l result model h)
      = inr (c, d) /\
      chisq (List.map flux rows) (List.map fluxerr rows)
            (List.map (fun r => Model.bandflux model (band r) (time r)) rows)
      = Some c /\
      c = Numpy.sum
            (List.map
               (fun r => ((flux r - Model.bandflux model (band r) (time r))
                          / fluxerr r) ^ 2) rows).
Proof.
  intros registry h l data result model Hl Hreg rows Hne.
  rewrite (calc_model_chisq_run registry _ h l data result model Hl Hreg).
  simpl. fold rows. destruct rows as [| r rows']; [congruence |].
  do 2 eexists. split; [reflexivity |].
  split; [apply sncosmo_chisq_spec_columns | reflexivity].
Qed.

Lemma chisq_value_over_retained_rows_witness :
  exists c d,
    fst (calc_model_chisq Sample.registry sncosmo_chisq_spec 1%positive
           Sample.one_param Sample.model Sample.store)
    = inr (c, d) /\
    chisq [3; 4] [1; 2] [2; 2] = Some c /\
    c = Numpy.sum [((3 - 2) / 1) ^ 2; ((4 - 2) / 2) ^ 2].
Proof.
  refine (chisq_value_over_retained_rows
            Sample.registry Sample.store 1%positive Sample.table
            Sample.one_param Sample.model _ _ _).
  - reflexivity.
  - exact sample_registered_table.
  - discriminate.
Defined.

(** C8.  Whether the call returns or raises, every table that was in the
    store before the call, the caller's table among them, is in the store
    unchanged after it; when the call gets past the bandpass look-ups, the
    final store is the initial one plus two new tables, the copy and the
    selection made from it. *)
Theorem input_table_not_mutated :
  forall registry f l result model (h : gmap loc Table),
    let h' := snd (calc_model_chisq registry f l result model h) in
    h ⊆ h' /\
    (forall l0 t, h !! l0 = Some t -> h' !! l0 = Some t) /\
    (forall data,
        h !! l = Some data ->
        registered registry data ->
        exists l1 l2,
          h !! l1 = None /\ h !! l2 = None /\
          h' = <[l2 := List.filter (retained registry model) data]>
                 (<[l1 := data]> h)).
Proof.
  intros registry f l result model h h'.
  assert (Hsub : h ⊆ h') by apply calc_model_chisq_preserves.
  split; [exact Hsub | split].
  - intros l0 t Hl0. exact (lookup_weaken _ _ _ _ Hl0 Hsub).
  - intros data Hl Hreg. subst h'.
    rewrite (calc_model_chisq_run registry f h l data result model Hl Hreg).
    simpl. set (l1 := fresh (dom h)). set (h1 := <[l1 := data]> h).
    exists l1, (fresh (dom h1)).
    assert (H1 : h !! l1 = None) by apply not_elem_of_dom, is_fresh.
    split; [exact H1 | split; [| reflexivity]].
    apply (lookup_weaken_None h h1).
    + apply not_elem_of_dom, is_fresh.
    + now apply insert_subseteq.
Qed.

Lemma input_table_not_mutated_witness :
  snd (calc_model_chisq Sample.registry sncosmo_chisq_spec 2%positive
         Sample.one_param Sample.model Sample.store) !! 2%positive
  = Some Sample.outside.
Proof.
  refine (proj1 (proj2 (input_table_not_mutated
                          Sample.registry sncosmo_chisq_spec 2%positive
                          Sample.one_param Sample.model Sample.store))
            2%positive Sample.outside _).
  reflexivity.
Defined.

(** C9, with a row whose band is not registered.  The appended row lies
    outside the model's time range, hence outside its domain; the call on
    the shorter table returns, the call on the longer one raises the
    registry's error. *)
Lemma appending_unregistered_row_raises :
  SampleUnregistered.appended !! 1%positive = Some Sample.table /\
  SampleUnregistered.appended !! 2%positive
  = Some (Sample.table ++ [SampleUnregistered.unknown]) /\
  Model.maxtime Sample.model < time SampleUnregistered.unknown /\
  ~ in_domain Sample.registry Sample.model SampleUnregistered.unknown /\
  fst (calc_model_chisq Sample.registry sncosmo_chisq_spec 1%positive
         Sample.one_param Sample.model SampleUnregistered.appended)
  = inr (8 # 4, 1%Z) /\
  fst (calc_model_chisq Sample.registry sncosmo_chisq_spec 2%positive
         Sample.one_param Sample.model SampleUnregistered.appended)
  = inl (BandpassNotRegistered "sdss_u").
Proof.
  repeat split; try reflexivity.
  intros [[_ H] _]. vm_compute in H. now apply H.
Qed.

(** C9, amended.  If the call succeeds on a table, it returns the same
    chi-squared and the same degrees of freedom on that table with rows
    appended whose band is registered and which lie outside the model's
    domain. *)
Theorem appending_rows_outside_domain :
  forall registry f (h h' : gmap loc Table) l l' (data extra : Table)
         result model v,
    h !! l = Some data ->
    h' !! l' = Some (data ++ extra) ->
    Forall (fun r => is_Some (registry !! band r) /\
                     ~ in_domain registry model r) extra ->
    fst (calc_model_chisq registry f l result model h) = inr v ->
    fst (calc_model_chisq registry f l' result model h') = inr v.
Proof.
  intros registry f h h' l l' data extra result model v Hl Hl' Hout Hv.
  destruct (calc_model_chisq_returns registry f h l result model v Hv)
    as (data0 & r & rows & Hl0 & Hreg & E & ->).
  rewrite Hl in Hl0. injection Hl0 as <-.
  assert (Hreg' : registered registry (data ++ extra)).
  { apply registered_app. split; [exact Hreg |].
    revert Hout. apply List.Forall_impl. now intros r0 [H _]. }
  rewrite (calc_model_chisq_run registry f h' l' _ result model Hl' Hreg').
  simpl. rewrite List.filter_app, E, (filter_none _ extra).
  - rewrite app_nil_r. reflexivity.
  - revert Hout. apply List.Forall_impl. intros r0 [_ Hn].
    apply not_true_is_false. now rewrite retained_in_domain.
Qed.

Lemma appending_rows_outside_domain_witness :
  fst (calc_model_chisq Sample.registry sncosmo_chisq_spec 3%positive
         Sample.one_param Sample.model Sample.store)
  = inr (8 # 4, 1%Z).
Proof.
  refine (appending_rows_outside_domain
            Sample.registry sncosmo_chisq_spec Sample.store Sample.store
            1%positive 3%positive Sample.table Sample.outside
            Sample.one_param Sample.model (8 # 4, 1%Z) _ _ _ _).
  - reflexivity.
  - reflexivity.
  - repeat constructor; try (eexists; reflexivity);
      intros [[H1 H2] [bp [E [H3 H4]]]].
    + vm_compute in H2. now apply H2.
    + vm_compute in E. injection E as <-. vm_compute in H4. now apply H4.
  - reflexivity.
Defined.


(** * Further properties of the code *)

(** ** Time normaliser *)

Section TimeNormalizerMore.
Import TimeNormalizer.

(** One instant written in the three conventions normalises to one value:
    for a Snoopy date [s] with [0 <= s < 53000], the MJD [s + 53000] and
    the JD [s + 53000 + 2400000.5] give the same result as [s]. *)
Theorem conventions_agree (s : Q) :
  0 <= s -> s < 53000 ->
  convert_to_jd (s + 53000) == convert_to_jd s /\
  convert_to_jd (s + 53000 + 2400000.5) == convert_to_jd s.
Proof.
  intros H0 H1.
  rewrite (convert_snoopy s H1).
  rewrite (convert_mjd (s + 53000)) by lra.
  rewrite (convert_jd (s + 53000 + 2400000.5)) by lra.
  split; reflexivity.
Qed.

Lemma conventions_agree_witness :
  convert_to_jd (500 + 53000) == convert_to_jd 500 /\
  convert_to_jd (500 + 53000 + 2400000.5) == convert_to_jd 500.
Proof. apply (conventions_agree 500); [discriminate | reflexivity]. Defined.

Lemma convert_unchanged (x : Q) :
  convert_to_jd x == x <-> 2400000.5 < x.
Proof.
  destruct (convert_cases x) as [[H E] | [[H1 [H2 E]] | [H E]]];
    rewrite E; split; intros; lra.
Qed.

(** No date is moved backwards, and a date that is not negative is
    returned unchanged exactly when it is strictly above 2400000.5. *)
Theorem convert_to_jd_unchanged_iff (x : Q) :
  x <= convert_to_jd x /\
  (0 <= x -> (convert_to_jd x == x <-> 2400000.5 < x)).
Proof.
  split; [| intros _; apply convert_unchanged].
  destruct (convert_cases x) as [[H E] | [[H1 [H2 E]] | [H E]]];
    rewrite E; lra.
Qed.

Lemma convert_to_jd_unchanged_iff_witness :
  convert_to_jd 500 == 500 <-> 2400000.5 < 500.
Proof.
  apply (proj2 (convert_to_jd_unchanged_iff 500)). discriminate.
Defined.

(** At or below -53000, down to [-2^53], one application is not enough: the
    first result is still at most 2400000.5, and a second application moves
    it further. *)
Theorem convert_to_jd_not_idempotent_below (x : Q) :
  - (9007199254740992) <= x -> x <= - (53000) ->
  convert_to_jd x <= 2400000.5 /\
  convert_to_jd x < convert_to_jd (convert_to_jd x).
Proof.
  intros Hlo Hhi.
  assert (E : convert_to_jd x = x + 53000 + 2400000.5)
    by (apply convert_snoopy; lra).
  assert (Hle : convert_to_jd x <= 2400000.5) by (rewrite E; lra).
  split; [exact Hle |].
  destruct (convert_cases (convert_to_jd x))
    as [[H E'] | [[H1 [H2 E']] | [H E']]]; [rewrite E' .. | ]; lra.
Qed.

Lemma convert_to_jd_not_idempotent_below_witness :
  convert_to_jd (- (60000)) <= 2400000.5 /\
  convert_to_jd (- (60000)) < convert_to_jd (convert_to_jd (- (60000))).
Proof.
  apply (convert_to_jd_not_idempotent_below (- (60000))); discriminate.
Defined.

(** Two dates in the same convention are never put in the opposite order,
    but across the 53000 threshold they are: a Snoopy date and an MJD date
    that is later by no more than 52999 come out reversed. *)
Theorem convert_to_jd_order (x y : Q) :
  x <= y ->
  (y < 53000 \/ (53000 <= x /\ y <= 2400000.5) \/ 2400000.5 < x ->
   convert_to_jd x <= convert_to_jd y) /\
  (x < 53000 -> 53000 <= y -> y + 1 <= x + 53000 ->
   convert_to_jd y < convert_to_jd x).
Proof.
  intros Hxy. split.
  - intros [H | [[H1 H2] | H]].
    + rewrite !convert_snoopy by lra. lra.
    + rewrite !convert_mjd by lra. lra.
    + rewrite !convert_jd by lra. lra.
  - intros H1 H2 H3.
    rewrite (convert_snoopy x), (convert_mjd y) by lra. lra.
Qed.

Lemma convert_to_jd_order_witness :
  convert_to_jd 53000 < convert_to_jd 52000.
Proof.
  refine (proj2 (convert_to_jd_order 52000 53000 _) _ _ _);
    solve [reflexivity | discriminate].
Defined.

End TimeNormalizerMore.

(** ** Chi-squared primitive *)

Section ChisqMore.

Lemma sum_nonneg (l : list Q) :
  Forall (fun x => 0 <= x) l -> 0 <= Numpy.sum l.
Proof.
  induction 1 as [| x l Hx _ IH]; simpl; [apply Qle_refl | lra].
Qed.

Lemma square_nonneg (q : list Q) : Forall (fun x => 0 <= x) (Numpy.square q).
Proof.
  unfold Numpy.square. apply List.Forall_forall. intros y Hy.
  apply List.in_map_iff in Hy as [x [<- _]].
  assert (E : x ^ 2 == x * x) by (simpl; ring). rewrite E. nra.
Qed.

Lemma sum_pointwise (l1 l2 : list Q) :
  Forall2 Qeq l1 l2 -> Numpy.sum l1 == Numpy.sum l2.
Proof.
  induction 1 as [| x y l1 l2 Hxy _ IH]; simpl; [reflexivity |].
  now rewrite Hxy, IH.
Qed.

End ChisqMore.

Section ChisqProperties.

Lemma chisq_inv data error model v :
  chisq data error model = Some v ->
  exists q, v = Numpy.sum (Numpy.square q).
Proof.
  unfold chisq. destruct (Numpy.sub data model) as [r |]; [| discriminate].
  simpl. destruct (Numpy.div r error) as [q |]; [| discriminate].
  simpl. intros [= <-]. now exists q.
Qed.

Lemma squares_swap (data : list Q) : forall error model,
  Forall2 Qeq
    (Numpy.square (zip_with Qdiv (zip_with Qminus data model) error))
    (Numpy.square (zip_with Qdiv (zip_with Qminus model data) error)).
Proof.
  induction data as [| d ds IH]; intros [| e es] [| m ms]; simpl;
    try constructor.
  - unfold Qdiv. ring.
  - apply IH.
Qed.

End ChisqProperties.

(** With errors that are all nonzero, a chi-squared that is returned is
    not negative, whatever the shapes. *)
Theorem chisq_nonneg (data error model : list Q) (v : Q) :
  Forall (fun e => ~ e == 0) error ->
  chisq data error model = Some v -> 0 <= v.
Proof.
  intros _ H. apply chisq_inv in H as [q ->].
  apply sum_nonneg, square_nonneg.
Qed.

Lemma chisq_nonneg_witness :
  chisq [3; 4] [1; 2] [2; 2] = Some (8 # 4) /\ 0 <= 8 # 4.
Proof.
  split; [reflexivity |].
  apply (chisq_nonneg [3; 4] [1; 2] [2; 2]); [| reflexivity].
  repeat constructor; intros H; vm_compute in H; discriminate.
Defined.

(** Data and model enter symmetrically: exchanging them gives the same
    chi-squared. *)
Theorem chisq_symmetric (data error model : list Q) :
  length data = length model ->
  length error = length data ->
  exists v v', chisq data error model = Some v /\
               chisq model error data = Some v' /\
               v == v'.
Proof.
  intros Hm He. do 2 eexists.
  split; [now apply chisq_same_length |].
  split; [apply chisq_same_length; congruence |].
  apply sum_pointwise, squares_swap.
Qed.

Lemma chisq_symmetric_witness :
  exists v v', chisq [3; 4] [1; 2] [2; 2] = Some v /\
               chisq [2; 2] [1; 2] [3; 4] = Some v' /\
               v == v'.
Proof.
  apply (chisq_symmetric [3; 4] [1; 2] [2; 2]); reflexivity.
Defined.

Section Shapes.

Lemma broadcast_is_Some {A B C} (f : A -> B -> C) (a : list A) (b : list B) :
  is_Some (Numpy.broadcast f a b) <->
  (length a = length b \/ length a = 1 \/ length b = 1)%nat.
Proof.
  unfold Numpy.broadcast.
  destruct (Nat.eqb_spec (length a) (length b)) as [E | N].
  - split; [now left | now eexists].
  - destruct a as [| x [| x' a]]; destruct b as [| y [| y' b]];
      simpl in *; try congruence;
      (split; [intros [c Hc]; try discriminate; lia
              | intros H; try (now eexists); lia]).
Qed.

Lemma broadcast_length {A B C} (f : A -> B -> C) (a : list A) (b : list B) c :
  Numpy.broadcast f a b = Some c ->
  length c = if Nat.eqb (length a) 1 then length b else length a.
Proof.
  unfold Numpy.broadcast.
  destruct (Nat.eqb_spec (length a) (length b)) as [E | N].
  - intros [= <-]. rewrite length_zip_with.
    destruct (Nat.eqb_spec (length a) 1); lia.
  - destruct a as [| x [| x' a]]; destruct b as [| y [| y' b]];
      simpl in *; try congruence; intros [= <-]; simpl;
      rewrite ?length_map; reflexivity.
Qed.

End Shapes.

(** The shape error: [chisq] returns a value exactly when [data] and [model]
    have equal lengths or one of them has length one, and [error] and
    [data - model] have equal lengths or one of them has length one; for
    any other lengths it fails. *)
Theorem chisq_defined_iff (data error model : list Q) :
  is_Some (chisq data error model) <->
  (length data = length model \/ length data = 1 \/ length model = 1)%nat /\
  (let n := if Nat.eqb (length data) 1 then length model else length data in
   n = length error \/ n = 1 \/ length error = 1)%nat.
Proof.
  unfold chisq, Numpy.sub, Numpy.div.
  rewrite <- (broadcast_is_Some Qminus data model).
  destruct (Numpy.broadcast Qminus data model) as [r |] eqn:Hr; simpl.
  - rewrite <- (broadcast_length _ _ _ _ Hr), <- (broadcast_is_Some Qdiv r error).
    destruct (Numpy.broadcast Qdiv r error) as [q |]; simpl.
    + split; [intros _; split; eexists; reflexivity | intros _; now eexists].
    + split; [intros [x Hx]; discriminate | intros [_ [x Hx]]; discriminate].
  - split; [intros [x Hx]; discriminate | intros [[x Hx] _]; discriminate].
Qed.

(** ** Residual evaluator *)

Section ResidualMore.

Variable registry : gmap string Bandpass.t.
Variable f : Table -> Model.t -> Q.

Lemma comprehension_first_unregistered (g : Bandpass.t -> Q)
      (pre : Table) r (post : Table) h :
  registered registry pre ->
  registry !! band r = None ->
  comprehension
    (fun b => bp <- get_bandpass registry b ;; ret (g bp))
    (List.map band (pre ++ r :: post)) h
  = (inl (BandpassNotRegistered (band r)), h).
Proof.
  intros Hpre Hr. induction Hpre as [| r0 pre [bp Hbp] _ IH]; simpl.
  - unfold bind at 1. unfold bind at 1. unfold get_bandpass at 1.
    now rewrite Hr.
  - unfold bind at 1. unfold bind at 1. unfold get_bandpass at 1.
    rewrite Hbp. simpl. unfold bind at 1. now rewrite IH.
Qed.

Lemma calc_model_chisq_first_unregistered
      (h : gmap loc Table) l (pre : Table) r (post : Table) result model :
  h !! l = Some (pre ++ r :: post) ->
  registered registry pre ->
  registry !! band r = None ->
  calc_model_chisq registry f l result model h
  = (inl (BandpassNotRegistered (band r)),
     <[fresh (dom h) := pre ++ r :: post]> h).
Proof.
  intros Hl Hpre Hr. unfold calc_model_chisq.
  rewrite (bind_inr _ _ _ _ _ (deepcopy_run _ _ _ Hl)).
  set (h1 := <[fresh (dom h) := pre ++ r :: post]> h).
  assert (H1 : h1 !! fresh (dom h) = Some (pre ++ r :: post))
    by apply alloc_lookup.
  rewrite (bind_inr _ _ _ _ _ (getitem_col_run band _ _ _ H1)).
  now rewrite (bind_inl _ _ _ _ _
                 (comprehension_first_unregistered
                    Bandpass.minwave pre r post h1 Hpre Hr)).
Qed.

Lemma unregistered_split (t : Table) :
  ~ registered registry t ->
  exists pre r post,
    t = pre ++ r :: post /\
    registered registry pre /\ registry !! band r = None.
Proof.
  induction t as [| r t IH]; intros Hn.
  - destruct Hn. constructor.
  - destruct (registry !! band r) as [bp |] eqn:Hbp.
    + destruct IH as (pre & r' & post & -> & Hpre & Hr').
      { intros Ht. apply Hn. constructor; [now exists bp | exact Ht]. }
      exists (r :: pre), r', post. repeat split; [| exact Hr'].
      constructor; [now exists bp | exact Hpre].
    + exists [], r, t. repeat split; [constructor | exact Hbp].
Qed.

Lemma calc_model_chisq_dangling_run (h : gmap loc Table) l result model :
  h !! l = None ->
  calc_model_chisq registry f l result model h = (inl DanglingReference, h).
Proof.
  intros H. unfold calc_model_chisq, deepcopy, deref, bind at 1.
  unfold bind at 1. now rewrite H.
Qed.

(** The result of a call is decided by the table the reference
    designates, not by the rest of the store. *)
Lemma calc_model_chisq_local (h h' : gmap loc Table) l l' result model :
  h !! l = h' !! l' ->
  fst (calc_model_chisq registry f l result model h)
  = fst (calc_model_chisq registry f l' result model h').
Proof.
  intros E. destruct (h !! l) as [data |] eqn:Hl; symmetry in E.
  - destruct (decide (Forall (fun r => is_Some (registry !! band r)) data))
      as [Hreg | Hn].
    + now rewrite
        (calc_model_chisq_run registry f h l data result model Hl Hreg),
        (calc_model_chisq_run registry f h' l' data result model E Hreg).
    + destruct (unregistered_split data Hn)
        as (pre & r & post & -> & Hpre & Hr).
      now rewrite
        (calc_model_chisq_first_unregistered h l pre r post result model
           Hl Hpre Hr),
        (calc_model_chisq_first_unregistered h' l' pre r post result model
           E Hpre Hr).
  - now rewrite !calc_model_chisq_dangling_run.
Qed.

Lemma filter_idempotent (p : Row -> bool) (t : Table) :
  List.filter p (List.filter p t) = List.filter p t.
Proof.
  induction t as [| r t IH]; simpl; [reflexivity |].
  destruct (p r) eqn:Hp; simpl; [now rewrite Hp, IH | exact IH].
Qed.

Lemma registered_filter (p : Row -> bool) (t : Table) :
  registered registry t -> registered registry (List.filter p t).
Proof.
  unfold registered. rewrite !List.Forall_forall.
  intros H r Hr. apply H. now apply List.filter_In in Hr.
Qed.

End ResidualMore.

(** A row whose band is not registered makes the call fail with the
    registry's error for that band, whatever the row's time is, so also
    when the row lies outside the model's time range and would have been
    dropped; the band reported is that of the first such row, and only the
    copy has been allocated. *)
Theorem unregistered_band_raises :
  forall registry f (h : gmap loc Table) l (pre : Table) r (post : Table)
         result model,
    h !! l = Some (pre ++ r :: post) ->
    registered registry pre ->
    registry !! band r = None ->
    let out := calc_model_chisq registry f l result model h in
    out = (inl (BandpassNotRegistered (band r)),
           <[fresh (dom h) := pre ++ r :: post]> h) /\
    h !! fresh (dom h) = None /\
    snd out !! l = Some (pre ++ r :: post).
Proof.
  intros registry f h l pre r post result model Hl Hpre Hr out.
  assert (Hfresh : h !! fresh (dom h) = None)
    by apply not_elem_of_dom, is_fresh.
  assert (E : out = (inl (BandpassNotRegistered (band r)),
                     <[fresh (dom h) := pre ++ r :: post]> h))
    by now apply calc_model_chisq_first_unregistered.
  split; [exact E | split; [exact Hfresh |]].
  rewrite E. simpl. rewrite lookup_insert_ne; [exact Hl |].
  intros Heq. subst l. unfold Table in *. congruence.
Qed.

Lemma unregistered_band_raises_witness :
  fst (calc_model_chisq Sample.registry sncosmo_chisq_spec 1%positive
         Sample.one_param Sample.model SampleUnregistered.store)
  = inl (BandpassNotRegistered "sdss_u").
Proof.
  refine (f_equal fst
            (proj1 (unregistered_band_raises
                      Sample.registry sncosmo_chisq_spec
                      SampleUnregistered.store 1%positive [Sample.inside1]
                      SampleUnregistered.unknown [Sample.inside2]
                      Sample.one_param Sample.model _ _ _))).
  - reflexivity.
  - repeat constructor; eexists; reflexivity.
  - reflexivity.
Defined.

(** The result of a call is a function of the retained rows alone: two
    tables with registered bands and the same retained rows, wherever the
    dropped rows stand in them, give the same result, be it a value or the
    "No data" error. *)
Theorem result_decided_by_retained_rows :
  forall registry f (h1 h2 : gmap loc Table) l1 l2 (d1 d2 : Table)
         result model,
    h1 !! l1 = Some d1 ->
    h2 !! l2 = Some d2 ->
    registered registry d1 ->
    registered registry d2 ->
    List.filter (retained registry model) d1
    = List.filter (retained registry model) d2 ->
    fst (calc_model_chisq registry f l1 result model h1)
    = fst (calc_model_chisq registry f l2 result model h2).
Proof.
  intros registry f h1 h2 l1 l2 d1 d2 result model H1 H2 R1 R2 E.
  rewrite (calc_model_chisq_run registry f h1 l1 d1 result model H1 R1),
    (calc_model_chisq_run registry f h2 l2 d2 result model H2 R2).
  simpl. now rewrite E.
Qed.

Lemma result_decided_by_retained_rows_witness :
  fst (calc_model_chisq Sample.registry sncosmo_chisq_spec 1%positive
         Sample.one_param Sample.model Sample.store)
  = fst (calc_model_chisq Sample.registry sncosmo_chisq_spec 3%positive
           Sample.one_param Sample.model Sample.store).
Proof.
  apply (result_decided_by_retained_rows
           Sample.registry sncosmo_chisq_spec Sample.store Sample.store
           1%positive 3%positive Sample.table (Sample.table ++ Sample.outside)).
  - reflexivity.
  - reflexivity.
  - exact sample_registered_table.
  - exact sample_registered_all.
  - reflexivity.
Defined.

(** For a table all of whose bands are registered, restricting it to the
    model's domain beforehand changes nothing: the call on the already
    restricted table gives the result of the call on the full one. *)
Theorem prefiltered_table_same_result :
  forall registry f (h h' : gmap loc Table) l l' (data : Table) result model,
    h !! l = Some data ->
    h' !! l' = Some (List.filter (retained registry model) data) ->
    registered registry data ->
    fst (calc_model_chisq registry f l' result model h')
    = fst (calc_model_chisq registry f l result model h).
Proof.
  intros registry f h h' l l' data result model Hl Hl' Hreg.
  rewrite (calc_model_chisq_run registry f h l data result model Hl Hreg),
    (calc_model_chisq_run registry f h' l' _ result model Hl'
       (registered_filter registry _ data Hreg)).
  simpl. now rewrite filter_idempotent.
Qed.

Lemma prefiltered_table_same_result_witness :
  fst (calc_model_chisq Sample.registry sncosmo_chisq_spec 2%positive
         Sample.one_param Sample.model
         (<[2%positive := [Sample.inside1; Sample.inside2]]> Sample.store))
  = fst (calc_model_chisq Sample.registry sncosmo_chisq_spec 1%positive
           Sample.one_param Sample.model Sample.store).
Proof.
  apply (prefiltered_table_same_result
           Sample.registry sncosmo_chisq_spec Sample.store
           (<[2%positive := [Sample.inside1; Sample.inside2]]> Sample.store)
           1%positive 2%positive Sample.table).
  - reflexivity.
  - reflexivity.
  - exact sample_registered_table.
Defined.

(** When the call returns, the degrees of freedom [d] satisfy
    [1 - k <= d <= N - k], for [N] the number of rows of the input table and
    [k] the number of varied parameters. *)
Theorem degrees_of_freedom_bounds :
  forall registry f (h : gmap loc Table) l result model c d,
    fst (calc_model_chisq registry f l result model h) = inr (c, d) ->
    exists data : Table,
      h !! l = Some data /\
      (1 - Z.of_nat (length (vparam_names result)) <= d)%Z /\
      (d <= Z.of_nat (length data)
            - Z.of_nat (length (vparam_names result)))%Z.
Proof.
  intros registry f h l result model c d Hv.
  destruct (calc_model_chisq_returns registry f h l result model _ Hv)
    as (data & r & rows & Hl & _ & E & [= -> ->]).
  exists data. split; [exact Hl |].
  pose proof (List.filter_length_le (retained registry model) data) as Hle.
  rewrite E in Hle. simpl length in *. lia.
Qed.

Lemma degrees_of_freedom_bounds_witness :
  exists data : Table,
    Sample.store !! 3%positive = Some data /\
    (1 - 3 <= -1)%Z /\ (-1 <= Z.of_nat (length data) - 3)%Z.
Proof.
  apply (degrees_of_freedom_bounds
           Sample.registry sncosmo_chisq_spec Sample.store 3%positive
           Sample.three_params Sample.model (8 # 4) (-1)%Z).
  reflexivity.
Defined.

(** Calls do not interfere: after a call on any table, with any fit result
    and model, a call on a live table returns what it would have returned
    before; in particular a call can be repeated with the same result. *)
Theorem calls_do_not_interfere :
  forall registry f (h : gmap loc Table) l l' result model result' model',
    is_Some (h !! l) ->
    fst (calc_model_chisq registry f l result model
           (snd (calc_model_chisq registry f l' result' model' h)))
    = fst (calc_model_chisq registry f l result model h).
Proof.
  intros registry f h l l' result model result' model' [data Hl].
  apply calc_model_chisq_local. rewrite Hl.
  exact (lookup_weaken _ _ _ _ Hl
           (calc_model_chisq_preserves registry f l' result' model' h)).
Qed.

Lemma calls_do_not_interfere_witness :
  fst (calc_model_chisq Sample.registry sncosmo_chisq_spec 1%positive
         Sample.one_param Sample.model
         (snd (calc_model_chisq Sample.registry sncosmo_chisq_spec 1%positive
                 Sample.three_params Sample.model Sample.store)))
  = fst (calc_model_chisq Sample.registry sncosmo_chisq_spec 1%positive
           Sample.one_param Sample.model Sample.store).
Proof.
  apply (calls_do_not_interfere
           Sample.registry sncosmo_chisq_spec Sample.store 1%positive
           1%positive Sample.one_param Sample.model Sample.three_params
           Sample.model).
  eexists. reflexivity.
Defined.

(** ** Published CSP values *)

Section CSPFacts.
Import CSP.

Lemma contains_filter {A} (key : A -> string) (obj_id : string) (l : list A) :
  contains obj_id (List.map key l)
  = match List.filter (fun r => String.eqb (key r) obj_id) l with
    | [] => false
    | _ :: _ => true
    end.
Proof.
  unfold contains. induction l as [| r l IH]; simpl; [reflexivity |].
  rewrite (String.eqb_sym obj_id (key r)).
  destruct (String.eqb (key r) obj_id); simpl; [reflexivity | exact IH].
Qed.

Lemma filter_filter {A} (p q : A -> bool) (l : list A) :
  List.filter q (List.filter p l) = List.filter (fun r => p r && q r) l.
Proof.
  induction l as [| r l IH]; simpl; [reflexivity |].
  destruct (p r); simpl; [destruct (q r); now rewrite IH | exact IH].
Qed.

Lemma filter_nil_iff {A} (p : A -> bool) (l : list A) :
  List.filter p l = [] <-> forall r, In r l -> p r = false.
Proof.
  split.
  - intros E r Hr. destruct (p r) eqn:Hp; [| reflexivity].
    assert (Hin : In r (List.filter p l)) by (apply List.filter_In; auto).
    rewrite E in Hin. destruct Hin.
  - intros H. induction l as [| r l IH]; simpl; [reflexivity |].
    rewrite (H r) by now left. apply IH. intros r' Hr'. apply H. now right.
Qed.

Lemma filter_first {A} (p : A -> bool) (pre : list A) r (post : list A) :
  (forall r', In r' pre -> p r' = false) -> p r = true ->
  List.filter p (pre ++ r :: post) = r :: List.filter p post.
Proof.
  intros Hpre Hr. rewrite List.filter_app.
  rewrite (proj2 (filter_nil_iff p pre) Hpre). simpl. now rewrite Hr.
Qed.

(** The rows that answer a query for [obj_id] in table 3. *)
Lemma get_csp_t0_eq (table3 : list T0Row) (obj_id : string) :
  get_csp_t0 table3 obj_id
  = match List.filter
            (fun r => negb (TBmax_mask r) && String.eqb (SN r) obj_id) table3
    with
    | [] => inl (NoCSPData (String.append "No published t0 for " obj_id))
    | r :: _ => inr (TBmax r + 2400000.5)
    end.
Proof.
  unfold get_csp_t0. rewrite contains_filter, filter_filter.
  now destruct (List.filter _ table3).
Qed.

Lemma get_csp_ebv_eq (table1 : list EbvRow) (obj_id : string) :
  get_csp_ebv table1 obj_id
  = match List.filter (fun r => String.eqb (ebv_SN r) obj_id) table1 with
    | [] => inl (NoCSPData (String.append "No published E(B-V) for " obj_id))
    | r :: _ => inr (EBV r)
    end.
Proof.
  unfold get_csp_ebv. rewrite contains_filter.
  now destruct (List.filter _ table1).
Qed.

Lemma has_t0_filter (table3 : list T0Row) (obj_id : string) :
  has_t0 table3 obj_id <->
  List.filter (fun r => negb (TBmax_mask r) && String.eqb (SN r) obj_id) table3
  <> [].
Proof.
  rewrite filter_nil_iff. split.
  - intros (r & Hin & Hsn & Hm) H. specialize (H r Hin).
    rewrite Hm, (proj2 (String.eqb_eq _ _) Hsn) in H. discriminate.
  - intros H.
    destruct (List.filter
                (fun r => negb (TBmax_mask r) && String.eqb (SN r) obj_id)
                table3) as [| r rest] eqn:E.
    + destruct H. now apply filter_nil_iff.
    + assert (Hin : In r (r :: rest)) by now left.
      rewrite <- E in Hin. apply List.filter_In in Hin as [Hin Hq].
      apply andb_true_iff in Hq as [Hm Hsn].
      exists r. repeat split; [exact Hin | now apply String.eqb_eq |].
      now apply negb_true_iff.
Qed.

Lemma has_ebv_filter (table1 : list EbvRow) (obj_id : string) :
  has_ebv table1 obj_id <->
  List.filter (fun r => String.eqb (ebv_SN r) obj_id) table1 <> [].
Proof.
  rewrite filter_nil_iff. split.
  - intros (r & Hin & Hsn) H. specialize (H r Hin).
    rewrite (proj2 (String.eqb_eq _ _) Hsn) in H. discriminate.
  - intros H.
    destruct (List.filter (fun r => String.eqb (ebv_SN r) obj_id) table1)
      as [| r rest] eqn:E.
    + destruct H. now apply filter_nil_iff.
    + assert (Hin : In r (r :: rest)) by now left.
      rewrite <- E in Hin. apply List.filter_In in Hin as [Hin Hsn].
      exists r. split; [exact Hin | now apply String.eqb_eq].
Qed.

End CSPFacts.

(** For an identifier that does not end in NUL, [get_csp_t0] returns a
    value exactly when the object has an unmasked [T(Bmax)] in table 3; for
    every other object, whether absent from the table or present with a
    masked value only, it raises [NoCSPData] with the message naming the
    object.  It never fails in any other way. *)
Theorem get_csp_t0_outcome (table3 : list CSP.T0Row) (obj_id : string) :
  CSP.ends_with_nul obj_id = false ->
  (CSP.has_t0 table3 obj_id <->
   exists v, CSP.get_csp_t0 table3 obj_id = inr v) /\
  (~ CSP.has_t0 table3 obj_id <->
   CSP.get_csp_t0 table3 obj_id
   = inl (CSP.NoCSPData (String.append "No published t0 for " obj_id))).
Proof.
  intros _. rewrite has_t0_filter, get_csp_t0_eq.
  destruct (List.filter _ table3) as [| r rest]; split; split;
    try congruence; try (intros [v Hv]; discriminate).
  - intros _. eexists. reflexivity.
  - intros H. destruct H. discriminate.
Qed.

Lemma get_csp_t0_outcome_witness :
  ~ CSP.has_t0 CSPSample.table3 "2004dt" <->
  CSP.get_csp_t0 CSPSample.table3 "2004dt"
  = inl (CSP.NoCSPData "No published t0 for 2004dt").
Proof.
  apply (proj2 (get_csp_t0_outcome CSPSample.table3 "2004dt" eq_refl)).
Defined.

(** The value returned is that of the first unmasked row for the object,
    plus 2400000.5: masked rows for the object that come earlier in the
    table are passed over. *)
Theorem get_csp_t0_first_unmasked
        (pre : list CSP.T0Row) (r : CSP.T0Row) (post : list CSP.T0Row) :
  CSP.TBmax_mask r = false ->
  (forall r', In r' pre ->
              CSP.SN r' = CSP.SN r -> CSP.TBmax_mask r' = true) ->
  CSP.get_csp_t0 (pre ++ r :: post) (CSP.SN r)
  = inr (CSP.TBmax r + 2400000.5).
Proof.
  intros Hm Hpre. rewrite get_csp_t0_eq, filter_first; [reflexivity | |].
  - intros r' Hin. destruct (String.eqb_spec (CSP.SN r') (CSP.SN r)) as [E | N].
    + rewrite (Hpre r' Hin E). reflexivity.
    + apply andb_false_r.
  - now rewrite Hm, String.eqb_refl.
Qed.

Lemma get_csp_t0_first_unmasked_witness :
  CSP.get_csp_t0
    ([CSP.mkT0 "2005kc" 0 true; CSP.mkT0 "2004dt" 53240 false]
       ++ CSP.mkT0 "2005kc" 53697.61 false
       :: [CSP.mkT0 "2005kc" 1 false])
    "2005kc"
  = inr (53697.61 + 2400000.5).
Proof.
  apply (get_csp_t0_first_unmasked
           [CSP.mkT0 "2005kc" 0 true; CSP.mkT0 "2004dt" 53240 false]
           (CSP.mkT0 "2005kc" 53697.61 false)
           [CSP.mkT0 "2005kc" 1 false]).
  - reflexivity.
  - intros r' [<- | [<- | []]]; [reflexivity | discriminate].
Defined.

(** For an identifier that does not end in NUL, [get_csp_ebv] returns the
    [E(B-V)] of the first row of table 1 for the object, and raises
    [NoCSPData] exactly when the table has no row for it. *)
Theorem get_csp_ebv_outcome (table1 : list CSP.EbvRow) (obj_id : string) :
  CSP.ends_with_nul obj_id = false ->
  (~ CSP.has_ebv table1 obj_id <->
   CSP.get_csp_ebv table1 obj_id
   = inl (CSP.NoCSPData (String.append "No published E(B-V) for " obj_id))) /\
  (forall pre r post,
      table1 = pre ++ r :: post ->
      CSP.ebv_SN r = obj_id ->
      (forall r', In r' pre -> CSP.ebv_SN r' <> obj_id) ->
      CSP.get_csp_ebv table1 obj_id = inr (CSP.EBV r)).
Proof.
  intros _. split.
  - rewrite has_ebv_filter, get_csp_ebv_eq.
    destruct (List.filter _ table1) as [| r rest]; split; try congruence.
    intros H. destruct H. discriminate.
  - intros pre r post -> Hr Hpre.
    rewrite get_csp_ebv_eq, filter_first; [reflexivity | |].
    + intros r' Hin. apply String.eqb_neq. now apply Hpre.
    + now apply String.eqb_eq.
Qed.

Lemma get_csp_ebv_outcome_witness :
  CSP.get_csp_ebv CSPSample.table1 "2005kc" = inr 0.132.
Proof.
  apply (proj2 (get_csp_ebv_outcome CSPSample.table1 "2005kc" eq_refl)
           [CSP.mkEbv "2004dt" 0.02] (CSP.mkEbv "2005kc" 0.132) []).
  - reflexivity.
  - reflexivity.
  - intros r' [<- | []]. discriminate.
Defined.

(** [filter_has_csp_data] answers [True] exactly for the tables whose
    object, named by an identifier that does not end in NUL, has both an
    unmasked time of maximum and a colour excess, and [False] for the
    others: a failed look-up is never propagated.  A table without an
    [obj_id] entry in its meta data is a [KeyError]. *)
Theorem filter_has_csp_data_outcome
        (table3 : list CSP.T0Row) (table1 : list CSP.EbvRow)
        (meta : gmap string string) :
  (meta !! "obj_id" = None ->
   CSP.filter_has_csp_data table3 table1 meta = inl (CSP.KeyError "obj_id")) /\
  (forall obj_id,
      meta !! "obj_id" = Some obj_id ->
      CSP.ends_with_nul obj_id = false ->
      exists b,
        CSP.filter_has_csp_data table3 table1 meta = inr b /\
        (b = true <->
         CSP.has_t0 table3 obj_id /\ CSP.has_ebv table1 obj_id)).
Proof.
  unfold CSP.filter_has_csp_data. split.
  - now intros ->.
  - intros obj_id -> _.
    pose proof (has_t0_filter table3 obj_id) as H3.
    pose proof (has_ebv_filter table1 obj_id) as H1.
    rewrite get_csp_t0_eq, get_csp_ebv_eq.
    destruct (List.filter _ table3) as [| r3 rest3].
    { exists false. split; [reflexivity |]. split; [discriminate |].
      intros [H _]. apply H3 in H. now destruct H. }
    destruct (List.filter _ table1) as [| r1 rest1].
    + exists false. split; [reflexivity |]. split; [discriminate |].
      intros [_ H]. apply H1 in H. now destruct H.
    + exists true. split; [reflexivity |]. split; [| reflexivity].
      intros _. split; [apply H3 | apply H1]; discriminate.
Qed.

Lemma filter_has_csp_data_outcome_witness :
  exists b,
    CSP.filter_has_csp_data CSPSample.table3 CSPSample.table1
                            (CSPSample.meta "2009ds") = inr b /\
    (b = true <->
     CSP.has_t0 CSPSample.table3 "2009ds" /\
     CSP.has_ebv CSPSample.table1 "2009ds").
Proof.
  apply (proj2 (filter_has_csp_data_outcome
                  CSPSample.table3 CSPSample.table1
                  (CSPSample.meta "2009ds")) "2009ds"); reflexivity.
Defined.

(** For an identifier that does not end in NUL, the time of maximum that
    [get_csp_t0] returns is the published value of an unmasked row for the
    object, moved by 2400000.5.  When the published value is at least 1 the
    result is left unchanged by [convert_to_jd], and when it is an MJD in
    the range [53000, 2400000.5] the result is [convert_to_jd] of the
    published value. *)
Theorem get_csp_t0_is_julian_date
        (table3 : list CSP.T0Row) (obj_id : string) (v : Q) :
  CSP.ends_with_nul obj_id = false ->
  CSP.get_csp_t0 table3 obj_id = inr v ->
  exists r,
    In r table3 /\ CSP.SN r = obj_id /\ CSP.TBmax_mask r = false /\
    v = CSP.TBmax r + 2400000.5 /\
    (1 <= CSP.TBmax r -> TimeNormalizer.convert_to_jd v == v) /\
    (53000 <= CSP.TBmax r -> CSP.TBmax r <= 2400000.5 ->
     v == TimeNormalizer.convert_to_jd (CSP.TBmax r)).
Proof.
  intros _. rewrite get_csp_t0_eq.
  destruct (List.filter _ table3) as [| r rest] eqn:E; [discriminate |].
  intros [= <-].
  assert (Hin : In r (r :: rest)) by now left.
  rewrite <- E in Hin. apply List.filter_In in Hin as [Hin Hq].
  apply andb_true_iff in Hq as [Hm Hsn].
  exists r. split; [exact Hin |].
  split; [now apply String.eqb_eq |].
  split; [now apply negb_true_iff |].
  split; [reflexivity |]. split.
  - intros Hpos. rewrite convert_jd by lra. reflexivity.
  - intros H1 H2. rewrite convert_mjd by assumption. reflexivity.
Qed.

Lemma get_csp_t0_is_julian_date_witness :
  exists r,
    In r CSPSample.table3 /\ CSP.SN r = "2005kc" /\
    CSP.TBmax_mask r = false /\
    53697.61 + 2400000.5 = CSP.TBmax r + 2400000.5 /\
    (1 <= CSP.TBmax r ->
     TimeNormalizer.convert_to_jd (53697.61 + 2400000.5)
     == 53697.61 + 2400000.5) /\
    (53000 <= CSP.TBmax r -> CSP.TBmax r <= 2400000.5 ->
     53697.61 + 2400000.5 == TimeNormalizer.convert_to_jd (CSP.TBmax r)).
Proof.
  apply (get_csp_t0_is_julian_date CSPSample.table3 "2005kc"
           (53697.61 + 2400000.5)); reflexivity.
Defined.
